(** * ioutils/maxstdio: the C shim around the CRT stream-limit primitives

    The translation unit [maxstdio.c] defines two functions,

      int CGetMaxSTDIO()            { return _getmaxstdio(); }
      int CSetMaxSTDIO(int new_max) { return _setmaxstdio(new_max); }

    Both bodies consist of one call to a function of the Windows C runtime
    and hand its result back.  The runtime functions are external to the
    repository, so the embedding keeps them apart from the shim:

    - a program is a finite tree of external calls ([prog]), and the two C
      functions are two such trees, read off their bodies;
    - a runtime is any pair of state transformers ([CRT]); statements about
      the shim itself are proved for every runtime;
    - statements that also depend on what the runtime does are proved for
      every runtime that meets the contract Microsoft documents for the two
      primitives ([documented]), of which [crt_model] is an executable
      instance;
    - whether a call into the runtime comes back at all is a matter of its
      own, stated over runtimes with partial primitives ([PCRT]). *)

From Stdlib Require Import ZArith List Lia Bool.
Import ListNotations.

Open Scope Z_scope.

Module MaxStdio.

(** ** Values

    Parameters and results have C type [int], 32 bits wide on every Windows
    ABI.  The shim does no arithmetic and no conversion on them, so they are
    carried as [Z]; [is_int] is the range of the C type. *)

Definition INT_MIN : Z := - 2 ^ 31.
Definition INT_MAX : Z := 2 ^ 31 - 1.

Definition is_int (z : Z) : Prop := INT_MIN <= z <= INT_MAX.

(** ** Programs over the two external calls *)

(** One entry of the log of calls made into the runtime. *)
Inductive event : Type :=
| Ev_getmaxstdio
| Ev_setmaxstdio (new_max : Z).

(** A program either returns, or calls [_getmaxstdio()] or
    [_setmaxstdio(new_max)] and goes on with the integer it gets back. *)
Inductive prog (A : Type) : Type :=
| Ret (a : A)
| Call_getmaxstdio (k : Z -> prog A)
| Call_setmaxstdio (new_max : Z) (k : Z -> prog A).

Arguments Ret {A} a.
Arguments Call_getmaxstdio {A} k.
Arguments Call_setmaxstdio {A} new_max k.

Fixpoint bind {A B : Type} (p : prog A) (f : A -> prog B) : prog B :=
  match p with
  | Ret a => f a
  | Call_getmaxstdio k => Call_getmaxstdio (fun r => bind (k r) f)
  | Call_setmaxstdio n k => Call_setmaxstdio n (fun r => bind (k r) f)
  end.

Declare Scope prog_scope.
Delimit Scope prog_scope with prog.
Notation "x <- p ;; q" := (bind p (fun x => q))
  (at level 61, p at next level, right associativity) : prog_scope.
Notation "p ;; q" := (bind p (fun _ => q))
  (at level 61, right associativity) : prog_scope.

(** ** The two functions of maxstdio.c *)

(** [int CGetMaxSTDIO() { return _getmaxstdio(); }] *)
Definition CGetMaxSTDIO : prog Z :=
  Call_getmaxstdio (fun r => Ret r).

(** [int CSetMaxSTDIO(int new_max) { return _setmaxstdio(new_max); }] *)
Definition CSetMaxSTDIO (new_max : Z) : prog Z :=
  Call_setmaxstdio new_max (fun r => Ret r).

(** ** Runtimes *)

(** A runtime gives the two primitives as transformers of its own state:
    each takes the state before the call and yields the integer it returns
    and the state after the call. *)
Record CRT : Type := MkCRT {
  crt_state : Type;
  _getmaxstdio : crt_state -> Z * crt_state;
  _setmaxstdio : Z -> crt_state -> Z * crt_state
}.

(** What a run of a program gives: the returned value, the runtime state it
    leaves, and the calls it made, oldest first. *)
Record outcome (S A : Type) : Type := MkOutcome {
  result : A;
  final : S;
  trace : list event
}.

Arguments MkOutcome {S A} result final trace.
Arguments result {S A} o.
Arguments final {S A} o.
Arguments trace {S A} o.

Definition logged {S A : Type} (e : event) (o : outcome S A) : outcome S A :=
  MkOutcome (result o) (final o) (e :: trace o).

Fixpoint run (P : CRT) {A : Type} (p : prog A) (s : crt_state P)
  : outcome (crt_state P) A :=
  match p with
  | Ret a => MkOutcome a s []
  | Call_getmaxstdio k =>
      let '(r, s') := _getmaxstdio P s in
      logged Ev_getmaxstdio (run P (k r) s')
  | Call_setmaxstdio n k =>
      let '(r, s') := _setmaxstdio P n s in
      logged (Ev_setmaxstdio n) (run P (k r) s')
  end.

(** ** Sequences of calls to the shim *)

Inductive op : Type :=
| Get
| Set_ (new_max : Z).

Definition call (o : op) : prog Z :=
  match o with
  | Get => CGetMaxSTDIO
  | Set_ n => CSetMaxSTDIO n
  end.

Fixpoint calls (l : list op) : prog (list Z) :=
  match l with
  | [] => Ret []
  | o :: l' => (r <- call o ;; rs <- calls l' ;; Ret (r :: rs))%prog
  end.

Definition is_get (o : op) : bool :=
  match o with
  | Get => true
  | Set_ _ => false
  end.

(** ** The documented contract of the primitives

    Microsoft's reference for the C runtime states, for [_getmaxstdio]:
    "Returns a number that represents the number of simultaneously open files
    currently permitted at the stdio level", and for [_setmaxstdio]:
    "Returns new_max if successful; -1 otherwise".  A runtime meets the
    contract, for a reading [nstream] of the limit out of its state, when
    the query returns the limit and leaves the state alone, and a request
    either is honoured (the limit becomes [new_max], which is returned) or
    is refused (the limit stays, and -1 is returned). *)
Record documented (P : CRT) (nstream : crt_state P -> Z) : Prop := {
  doc_get : forall s, _getmaxstdio P s = (nstream s, s);
  doc_set : forall n s,
      (fst (_setmaxstdio P n s) = n /\
       nstream (snd (_setmaxstdio P n s)) = n)
      \/
      (fst (_setmaxstdio P n s) = -1 /\
       nstream (snd (_setmaxstdio P n s)) = nstream s)
}.

(** An executable runtime of that shape.  Its state is the limit itself;
    [accepts cur n] says whether a request for [n] is honoured when the
    limit is [cur]. *)
Definition crt_model (accepts : Z -> Z -> bool) : CRT :=
  {| crt_state := Z;
     _getmaxstdio := fun s => (s, s);
     _setmaxstdio := fun n s => if accepts s n then (n, n) else (-1, s) |}.

(** The runtime refuses a request below [_IOB_ENTRIES] (20 in the MSVC and
    MinGW headers) or above the number of handles it can manage (8192 in
    current runtimes). *)
Definition _IOB_ENTRIES : Z := 20.
Definition _NHANDLE_ : Z := 8192.

Definition in_bounds (cur n : Z) : bool :=
  (_IOB_ENTRIES <=? n) && (n <=? _NHANDLE_).

Definition msvcrt : CRT := crt_model in_bounds.

(** The limit of a process that has not changed it. *)
Definition default_nstream : Z := 512.

(** ** Clients of the shim

    A client written against the runtime is a [prog]; the same client linked
    against the shim calls [CGetMaxSTDIO] where it called [_getmaxstdio] and
    [CSetMaxSTDIO] where it called [_setmaxstdio]. *)
Fixpoint via_shim {A : Type} (p : prog A) : prog A :=
  match p with
  | Ret a => Ret a
  | Call_getmaxstdio k => (r <- CGetMaxSTDIO ;; via_shim (k r))%prog
  | Call_setmaxstdio n k => (r <- CSetMaxSTDIO n ;; via_shim (k r))%prog
  end.

(** The primitive behind each function of the shim, and the call it logs. *)
Definition prim (P : CRT) (o : op) (s : crt_state P) : Z * crt_state P :=
  match o with
  | Get => _getmaxstdio P s
  | Set_ n => _setmaxstdio P n s
  end.

Definition event_of (o : op) : event :=
  match o with
  | Get => Ev_getmaxstdio
  | Set_ n => Ev_setmaxstdio n
  end.

(** The primitives applied one after the other, without the shim. *)
Fixpoint prims (P : CRT) (l : list op) (s : crt_state P)
  : list Z * crt_state P :=
  match l with
  | [] => ([], s)
  | o :: l' =>
      let '(r, s1) := prim P o s in
      let '(rs, s2) := prims P l' s1 in
      (r :: rs, s2)
  end.

Definition is_set (o : op) : bool := negb (is_get o).

(** Of the results [rs] of the calls [ops], those of the setter calls. *)
Definition setter_results (ops : list op) (rs : list Z) : list Z :=
  map snd (filter (fun c => is_set (fst c)) (combine ops rs)).

(** What a caller can tell about the limit from the results alone: a getter
    result says nothing new, a setter result other than -1 is the new
    limit, and -1 leaves the limit as it was. *)
Definition track (cur : Z) (o : op) (r : Z) : Z :=
  match o with
  | Get => cur
  | Set_ _ => if r =? -1 then cur else r
  end.

Fixpoint tracked (cur : Z) (ops : list op) (rs : list Z) : Z :=
  match ops, rs with
  | o :: ops', r :: rs' => tracked (track cur o r) ops' rs'
  | _, _ => cur
  end.

(** The values asked for by the setter calls of a sequence. *)
Fixpoint requests (ops : list op) : list Z :=
  match ops with
  | [] => []
  | Get :: ops' => requests ops'
  | Set_ n :: ops' => n :: requests ops'
  end.

(** A request for -1 cannot be told apart from a refusal by its result. *)
Definition unambiguous (o : op) : bool :=
  match o with
  | Get => true
  | Set_ n => negb (n =? -1)
  end.

(** ** A runtime with more state than the limit

    The state is the limit together with the number of streams that are
    open; a request is refused when it is out of bounds or below the number
    of open streams. *)
Definition crt_streams : CRT :=
  {| crt_state := Z * Z;
     _getmaxstdio := fun s => (fst s, s);
     _setmaxstdio := fun n s =>
       if in_bounds (fst s) n && (snd s <=? n)
       then (n, (n, snd s))
       else (-1, s) |}.

(** Two states with the same limit, 2048, and 600 and 100 streams open. *)
Definition crowded : Z * Z := (2048, 600).
Definition roomy : Z * Z := (2048, 100).

(** ** Calls that may not return

    Microsoft's reference says of [_setmaxstdio] that for a [new_max] out of
    bounds "the invalid parameter handler is invoked", and that the function
    returns -1 "if execution is allowed to continue"; the handler a process
    starts with ends the process.  A runtime in which a call may not return
    gives each primitive as a partial transformer, [None] standing for a
    call that does not come back. *)
Record PCRT : Type := MkPCRT {
  pcrt_state : Type;
  p_getmaxstdio : pcrt_state -> option (Z * pcrt_state);
  p_setmaxstdio : Z -> pcrt_state -> option (Z * pcrt_state)
}.

Fixpoint prun (P : PCRT) {A : Type} (p : prog A) (s : pcrt_state P)
  : option (outcome (pcrt_state P) A) :=
  match p with
  | Ret a => Some (MkOutcome a s [])
  | Call_getmaxstdio k =>
      match p_getmaxstdio P s with
      | Some (r, s') => option_map (logged Ev_getmaxstdio) (prun P (k r) s')
      | None => None
      end
  | Call_setmaxstdio n k =>
      match p_setmaxstdio P n s with
      | Some (r, s') =>
          option_map (logged (Ev_setmaxstdio n)) (prun P (k r) s')
      | None => None
      end
  end.

Definition returns {A : Type} (o : option A) : bool :=
  match o with
  | Some _ => true
  | None => false
  end.

(** A runtime all of whose calls return. *)
Definition total (P : CRT) : PCRT :=
  {| pcrt_state := crt_state P;
     p_getmaxstdio := fun s => Some (_getmaxstdio P s);
     p_setmaxstdio := fun n s => Some (_setmaxstdio P n s) |}.

(** The runtime of a process that kept the handler it started with: a
    request within bounds is honoured, one out of bounds does not return. *)
Definition crt_default_handler : PCRT :=
  {| pcrt_state := Z;
     p_getmaxstdio := fun s => Some (s, s);
     p_setmaxstdio := fun n s =>
       if in_bounds s n then Some (n, n) else None |}.

(** The outcome of one call that came back with [a], logged as [e]. *)
Definition answered {S : Type} (e : event) (a : Z * S) : outcome S Z :=
  MkOutcome (fst a) (snd a) [e].

(** ** Basic facts about the semantics *)

Lemma run_bind (P : CRT) {A B : Type} (p : prog A) (f : A -> prog B) s :
  run P (bind p f) s =
  let o := run P p s in
  let o' := run P (f (result o)) (final o) in
  MkOutcome (result o') (final o') (trace o ++ trace o').
Proof.
  revert s; induction p as [a | k IH | n k IH]; intros s; simpl.
  - now destruct (run P (f a) s).
  - destruct (_getmaxstdio P s) as [r s']. rewrite IH. reflexivity.
  - destruct (_setmaxstdio P n s) as [r s']. rewrite IH. reflexivity.
Qed.

Lemma run_CGetMaxSTDIO (P : CRT) s :
  run P CGetMaxSTDIO s =
  MkOutcome (fst (_getmaxstdio P s)) (snd (_getmaxstdio P s))
            [Ev_getmaxstdio].
Proof.
  unfold CGetMaxSTDIO; simpl. now destruct (_getmaxstdio P s).
Qed.

Lemma run_CSetMaxSTDIO (P : CRT) n s :
  run P (CSetMaxSTDIO n) s =
  MkOutcome (fst (_setmaxstdio P n s)) (snd (_setmaxstdio P n s))
            [Ev_setmaxstdio n].
Proof.
  unfold CSetMaxSTDIO; simpl. now destruct (_setmaxstdio P n s).
Qed.

Lemma crt_model_documented (accepts : Z -> Z -> bool) :
  documented (crt_model accepts) (fun s => s).
Proof.
  split; simpl.
  - reflexivity.
  - intros n s. destruct (accepts s n); simpl; auto.
Qed.

Lemma msvcrt_documented : documented msvcrt (fun s => s).
Proof.
  exact (crt_model_documented in_bounds).
Qed.

(** On a runtime that meets the contract, the setter's result is the
    requested value or -1, whatever the limit was. *)
Lemma CSetMaxSTDIO_result_documented (P : CRT) nstream
      (D : documented P nstream) n s :
  result (run P (CSetMaxSTDIO n) s) = n \/
  result (run P (CSetMaxSTDIO n) s) = -1.
Proof.
  rewrite run_CSetMaxSTDIO; simpl.
  destruct (doc_set P nstream D n s) as [[E _] | [E _]]; auto.
Qed.

(** No conversion happens on the way back: an [int] request gets an [int]
    answer. *)
Lemma CSetMaxSTDIO_result_is_int (P : CRT) nstream
      (D : documented P nstream) n s :
  is_int n -> is_int (result (run P (CSetMaxSTDIO n) s)).
Proof.
  intros Hn.
  destruct (CSetMaxSTDIO_result_documented P nstream D n s) as [E | E];
    rewrite E; [assumption | unfold is_int, INT_MIN, INT_MAX; lia].
Qed.

(** On a runtime that meets the contract, a request that is honoured and
    differs from the limit in force is answered with a value other than the
    one the getter gave just before. *)
Lemma CSetMaxSTDIO_honoured_differs_from_previous (P : CRT) nstream
      (D : documented P nstream) n s :
  n <> nstream s ->
  result (run P (CSetMaxSTDIO n) s) <> -1 ->
  result (run P (CSetMaxSTDIO n) s) <> result (run P CGetMaxSTDIO s).
Proof.
  intros Hn Hok.
  destruct (CSetMaxSTDIO_result_documented P nstream D n s) as [E | E];
    [| contradiction].
  rewrite E, run_CGetMaxSTDIO, (doc_get P nstream D). exact Hn.
Qed.

Lemma run_calls_gets (P : CRT) nstream (D : documented P nstream) ops s :
  forallb is_get ops = true ->
  final (run P (calls ops) s) = s /\
  result (run P (calls ops) s) = map (fun _ => nstream s) ops.
Proof.
  induction ops as [| o ops IH]; simpl; intros H.
  - auto.
  - apply andb_prop in H as [Ho Hops]. destruct o; [| discriminate].
    specialize (IH Hops) as [IHf IHr].
    unfold call. rewrite run_bind, run_CGetMaxSTDIO, (doc_get P nstream D s).
    simpl. rewrite run_bind; simpl. rewrite IHf, IHr. auto.
Qed.

Lemma crt_streams_documented : documented crt_streams fst.
Proof.
  split.
  - reflexivity.
  - intros n [lim opn]; cbn [crt_streams _setmaxstdio fst snd].
    destruct (in_bounds lim n && (opn <=? n)); cbn [fst snd]; auto.
Qed.

(** Where every call returns, the two semantics agree. *)
Lemma prun_total (P : CRT) {A : Type} (p : prog A) (s : crt_state P) :
  prun (total P) p s = Some (run P p s).
Proof.
  revert s; induction p as [a | k IH | n k IH]; intros s; cbn [prun run].
  - reflexivity.
  - cbn [total p_getmaxstdio]. destruct (_getmaxstdio P s) as [r s'].
    now rewrite IH.
  - cbn [total p_setmaxstdio]. destruct (_setmaxstdio P n s) as [r s'].
    now rewrite IH.
Qed.

(** ** The claims *)

(** C1.  The comment above [CSetMaxSTDIO], in maxstdio.c and in maxstdio.h,
    says that it returns the previous maximum.  The body returns what
    [_setmaxstdio] returns.  In a process whose limit is the default 512, a
    request for 2048 is honoured and the function returns 2048, while
    [CGetMaxSTDIO] called in that same state returns 512: the value returned
    is the new maximum, not the previous one. *)
Theorem CSetMaxSTDIO_returns_request_not_previous :
  result (run msvcrt CGetMaxSTDIO default_nstream) = 512 /\
  result (run msvcrt (CSetMaxSTDIO 2048) default_nstream) = 2048 /\
  result (run msvcrt (CSetMaxSTDIO 2048) default_nstream) <>
  result (run msvcrt CGetMaxSTDIO default_nstream).
Proof.
  repeat split. vm_compute. discriminate.
Qed.

(** C2.  On a runtime that meets the documented contract, when
    [CSetMaxSTDIO n] succeeds (its result is not the failure value -1), a
    call of [CGetMaxSTDIO] made right after it returns [n]. *)
Theorem set_then_get_observes_request (P : CRT) nstream
        (D : documented P nstream) n s :
  result (run P (CSetMaxSTDIO n) s) <> -1 ->
  result (run P (CSetMaxSTDIO n ;; CGetMaxSTDIO)%prog s) = n.
Proof.
  intros Hok. rewrite run_bind; cbv zeta.
  rewrite run_CSetMaxSTDIO in *; cbn [result final trace] in *.
  rewrite run_CGetMaxSTDIO, (doc_get P nstream D); cbn [result fst].
  destruct (doc_set P nstream D n s) as [[_ E] | [E _]];
    [exact E | contradiction].
Qed.

Lemma set_then_get_observes_request_witness :
  result (run msvcrt (CSetMaxSTDIO 2048) default_nstream) <> -1 /\
  result (run msvcrt (CSetMaxSTDIO 2048 ;; CGetMaxSTDIO)%prog
              default_nstream) = 2048.
Proof.
  assert (H : result (run msvcrt (CSetMaxSTDIO 2048) default_nstream) <> -1)
    by (vm_compute; discriminate).
  split; [exact H |].
  exact (set_then_get_observes_request msvcrt (fun s => s)
           msvcrt_documented 2048 default_nstream H).
Defined.

(** C3.  On every runtime and in every state, each function returns exactly
    the integer its primitive returned: [CGetMaxSTDIO] the one of
    [_getmaxstdio()], [CSetMaxSTDIO new_max] the one of
    [_setmaxstdio(new_max)]. *)
Theorem wrappers_return_primitive_result (P : CRT) (s : crt_state P) :
  result (run P CGetMaxSTDIO s) = fst (_getmaxstdio P s) /\
  forall new_max : Z,
    result (run P (CSetMaxSTDIO new_max) s) = fst (_setmaxstdio P new_max s).
Proof.
  split; [| intros n]; [rewrite run_CGetMaxSTDIO | rewrite run_CSetMaxSTDIO];
    reflexivity.
Qed.

(** C4.  On a runtime that meets the documented contract, [CGetMaxSTDIO]
    leaves the state as it found it; two calls in a row return the same
    value, the limit; and any sequence of calls to the shim in which the
    setter does not occur leaves the state, hence the limit, unchanged. *)
Theorem CGetMaxSTDIO_no_side_effect (P : CRT) nstream
        (D : documented P nstream) s (ops : list op) :
  forallb is_get ops = true ->
  final (run P CGetMaxSTDIO s) = s /\
  run P (a <- CGetMaxSTDIO ;; b <- CGetMaxSTDIO ;; Ret (a, b))%prog s =
    MkOutcome (nstream s, nstream s) s [Ev_getmaxstdio; Ev_getmaxstdio] /\
  final (run P (calls ops) s) = s.
Proof.
  intros Hops. repeat split.
  - rewrite run_CGetMaxSTDIO, (doc_get P nstream D). reflexivity.
  - simpl. now rewrite !(doc_get P nstream D).
  - apply (run_calls_gets P nstream D ops s Hops).
Qed.

Lemma CGetMaxSTDIO_no_side_effect_witness :
  forallb is_get [Get; Get; Get] = true /\
  final (run msvcrt CGetMaxSTDIO default_nstream) = default_nstream /\
  run msvcrt (a <- CGetMaxSTDIO ;; b <- CGetMaxSTDIO ;; Ret (a, b))%prog
      default_nstream =
    MkOutcome (512, 512) default_nstream [Ev_getmaxstdio; Ev_getmaxstdio] /\
  final (run msvcrt (calls [Get; Get; Get]) default_nstream) =
    default_nstream.
Proof.
  split; [reflexivity |].
  exact (CGetMaxSTDIO_no_side_effect msvcrt (fun s => s) msvcrt_documented
           default_nstream [Get; Get; Get] eq_refl).
Defined.

(** C5.  For every [new_max], on every runtime and in every state,
    [CSetMaxSTDIO new_max] is the bare call [_setmaxstdio(new_max)]: the one
    call it makes carries [new_max] itself, and its result and the state it
    leaves are those of the primitive applied to [new_max].  Nothing is
    checked, clamped or refused on the way. *)
Theorem CSetMaxSTDIO_forwards_argument (P : CRT) (new_max : Z)
        (s : crt_state P) :
  CSetMaxSTDIO new_max = Call_setmaxstdio new_max (fun r => Ret r) /\
  trace (run P (CSetMaxSTDIO new_max) s) = [Ev_setmaxstdio new_max] /\
  (result (run P (CSetMaxSTDIO new_max) s),
   final (run P (CSetMaxSTDIO new_max) s)) = _setmaxstdio P new_max s.
Proof.
  rewrite run_CSetMaxSTDIO; simpl.
  repeat split. now destruct (_setmaxstdio P new_max s).
Qed.

(** C6.  Whatever integer [v] the runtime reports, negative and zero
    included, [CGetMaxSTDIO] returns [v]: the outcome carries that integer
    and the state the primitive left, and nothing else. *)
Theorem CGetMaxSTDIO_reports_any_value (P : CRT) (s s' : crt_state P)
        (v : Z) :
  _getmaxstdio P s = (v, s') ->
  run P CGetMaxSTDIO s = MkOutcome v s' [Ev_getmaxstdio].
Proof.
  intros E. rewrite run_CGetMaxSTDIO, E. reflexivity.
Qed.

Lemma CGetMaxSTDIO_reports_any_value_witness :
  (_getmaxstdio msvcrt (-1) = (-1, -1) /\
   run msvcrt CGetMaxSTDIO (-1) = MkOutcome (-1) (-1) [Ev_getmaxstdio]) /\
  (_getmaxstdio msvcrt 0 = (0, 0) /\
   run msvcrt CGetMaxSTDIO 0 = MkOutcome 0 0 [Ev_getmaxstdio]).
Proof.
  split; (split; [reflexivity |]).
  - exact (CGetMaxSTDIO_reports_any_value msvcrt (-1) (-1) (-1) eq_refl).
  - exact (CGetMaxSTDIO_reports_any_value msvcrt 0 0 0 eq_refl).
Defined.

(** C7.  On every runtime and in every state, a call of either function
    makes exactly one call into the runtime, the one of its primitive, and
    the state it leaves is the state that call left. *)
Theorem wrappers_single_delegation (P : CRT) (s : crt_state P)
        (new_max : Z) :
  (trace (run P CGetMaxSTDIO s) = [Ev_getmaxstdio] /\
   final (run P CGetMaxSTDIO s) = snd (_getmaxstdio P s)) /\
  (trace (run P (CSetMaxSTDIO new_max) s) = [Ev_setmaxstdio new_max] /\
   final (run P (CSetMaxSTDIO new_max) s) = snd (_setmaxstdio P new_max s)).
Proof.
  rewrite run_CGetMaxSTDIO, run_CSetMaxSTDIO. repeat split.
Qed.

(** C9, as the code has it.  On a runtime that meets the documented
    contract, take two runs that start with the same limit.  [CGetMaxSTDIO]
    returns the same value in both and leaves the limits equal.  For the
    same [new_max] other than -1, [CSetMaxSTDIO new_max] need not return
    the same value in both, but when it does the limits it leaves are
    equal. *)
Theorem results_follow_limit_and_answer (P : CRT) nstream
        (D : documented P nstream) (s1 s2 : crt_state P) (new_max : Z) :
  nstream s1 = nstream s2 ->
  new_max <> -1 ->
  result (run P CGetMaxSTDIO s1) = result (run P CGetMaxSTDIO s2) /\
  nstream (final (run P CGetMaxSTDIO s1)) =
    nstream (final (run P CGetMaxSTDIO s2)) /\
  (result (run P (CSetMaxSTDIO new_max) s1) =
     result (run P (CSetMaxSTDIO new_max) s2) ->
   nstream (final (run P (CSetMaxSTDIO new_max) s1)) =
     nstream (final (run P (CSetMaxSTDIO new_max) s2))).
Proof.
  intros Hlim Hn.
  rewrite !run_CGetMaxSTDIO, !run_CSetMaxSTDIO, !(doc_get P nstream D).
  cbn [result final fst snd]. repeat split; try exact Hlim.
  intros Hres.
  destruct (doc_set P nstream D new_max s1) as [[R1 L1] | [R1 L1]],
           (doc_set P nstream D new_max s2) as [[R2 L2] | [R2 L2]];
    rewrite L1, L2; congruence.
Qed.

Lemma results_follow_limit_and_answer_witness :
  fst crowded = fst roomy /\
  4096 <> -1 /\
  result (run crt_streams CGetMaxSTDIO crowded) =
    result (run crt_streams CGetMaxSTDIO roomy) /\
  result (run crt_streams (CSetMaxSTDIO 4096) crowded) =
    result (run crt_streams (CSetMaxSTDIO 4096) roomy) /\
  fst (final (run crt_streams (CSetMaxSTDIO 4096) crowded)) =
    fst (final (run crt_streams (CSetMaxSTDIO 4096) roomy)).
Proof.
  assert (Hn : 4096 <> -1) by discriminate.
  destruct (results_follow_limit_and_answer crt_streams fst
              crt_streams_documented crowded roomy 4096 eq_refl Hn)
    as [Hget [_ Hset]].
  split; [reflexivity |]. split; [exact Hn |]. split; [exact Hget |].
  split; [reflexivity | exact (Hset eq_refl)].
Defined.

(** C9, as the claim has it, fails: [crt_streams] meets the documented
    contract, [crowded] and [roomy] hold the same limit, and
    [CSetMaxSTDIO 512] returns -1 and keeps the limit from the one, returns
    512 and installs it from the other. *)
Lemma setter_not_determined_by_limit :
  documented crt_streams fst /\
  fst crowded = fst roomy /\
  run crt_streams (CSetMaxSTDIO 512) crowded =
    MkOutcome (-1) (2048, 600) [Ev_setmaxstdio 512] /\
  run crt_streams (CSetMaxSTDIO 512) roomy =
    MkOutcome 512 (512, 100) [Ev_setmaxstdio 512] /\
  result (run crt_streams (CSetMaxSTDIO 512) crowded) <>
    result (run crt_streams (CSetMaxSTDIO 512) roomy).
Proof.
  split; [exact crt_streams_documented |].
  repeat split. vm_compute. discriminate.
Qed.

(** C10, as the code has it.  Each function makes its one call and comes
    back exactly when that call comes back, with the call's answer: on
    every runtime, calls of which may not return, in every state and for
    every [new_max]. *)
Theorem wrappers_return_when_primitive_returns (P : PCRT)
        (s : pcrt_state P) (new_max : Z) :
  prun P CGetMaxSTDIO s =
    option_map (answered Ev_getmaxstdio) (p_getmaxstdio P s) /\
  prun P (CSetMaxSTDIO new_max) s =
    option_map (answered (Ev_setmaxstdio new_max))
               (p_setmaxstdio P new_max s) /\
  returns (prun P CGetMaxSTDIO s) = returns (p_getmaxstdio P s) /\
  returns (prun P (CSetMaxSTDIO new_max) s) =
    returns (p_setmaxstdio P new_max s).
Proof.
  unfold CGetMaxSTDIO, CSetMaxSTDIO; cbn [prun].
  destruct (p_getmaxstdio P s) as [[rg sg] |],
           (p_setmaxstdio P new_max s) as [[rs ss] |];
    repeat split.
Qed.

(** C10, as the claim has it, fails: in a process that kept the handler it
    started with, [CSetMaxSTDIO (-5)] called at the default limit does not
    return, while [CGetMaxSTDIO] and [CSetMaxSTDIO 2048] do. *)
Lemma CSetMaxSTDIO_may_not_return :
  prun crt_default_handler (CSetMaxSTDIO (-5)) default_nstream = None /\
  prun crt_default_handler (CSetMaxSTDIO 2048) default_nstream =
    Some (MkOutcome 2048 2048 [Ev_setmaxstdio 2048]) /\
  prun crt_default_handler CGetMaxSTDIO default_nstream =
    Some (MkOutcome 512 512 [Ev_getmaxstdio]).
Proof.
  repeat split.
Qed.

(** ** Further properties: how calls to the shim compose *)

Lemma run_calls_cons (P : CRT) (o : op) (l : list op) s :
  run P (calls (o :: l)) s =
  let o1 := run P (call o) s in
  let o2 := run P (calls l) (final o1) in
  MkOutcome (result o1 :: result o2) (final o2) (trace o1 ++ trace o2).
Proof.
  cbn [calls]. rewrite run_bind; cbv zeta. rewrite run_bind; cbv zeta.
  cbn [run result final trace]. now rewrite app_nil_r.
Qed.

Lemma run_call (P : CRT) (o : op) s :
  run P (call o) s =
  MkOutcome (fst (prim P o s)) (snd (prim P o s)) [event_of o].
Proof.
  destruct o; [apply run_CGetMaxSTDIO | apply run_CSetMaxSTDIO].
Qed.

(** X1.  A client linked against the shim behaves, on every runtime and
    from every state, as the same client calling the primitives directly:
    same result, same final state, same calls into the runtime.  This holds
    for clients whose later calls depend on earlier results too. *)
Theorem via_shim_transparent (P : CRT) {A : Type} (p : prog A)
        (s : crt_state P) :
  run P (via_shim p) s = run P p s.
Proof.
  revert s; induction p as [a | k IH | n k IH]; intros s.
  - reflexivity.
  - cbn [via_shim]. rewrite run_bind, run_CGetMaxSTDIO; cbv zeta.
    cbn [result final trace run]. rewrite IH.
    now destruct (_getmaxstdio P s).
  - cbn [via_shim]. rewrite run_bind, run_CSetMaxSTDIO; cbv zeta.
    cbn [result final trace run]. rewrite IH.
    now destruct (_setmaxstdio P n s).
Qed.

(** X2.  On every runtime, a sequence of calls to the shim returns the
    results and leaves the state that the primitives give when applied one
    after the other, and it makes one call into the runtime per call to the
    shim, in the same order and with each setter argument as given. *)
Theorem calls_are_primitive_calls (P : CRT) (ops : list op)
        (s : crt_state P) :
  run P (calls ops) s =
  MkOutcome (fst (prims P ops s)) (snd (prims P ops s)) (map event_of ops).
Proof.
  revert s; induction ops as [| o ops IH]; intros s.
  - reflexivity.
  - rewrite run_calls_cons, run_call; cbv zeta. cbn [result final trace].
    rewrite IH. cbn [result final trace prims map app].
    destruct (prim P o s) as [r s1]; cbn [fst snd].
    now destruct (prims P ops s1).
Qed.

(** X3.  On a runtime that meets the documented contract, the getter calls
    of a sequence can be left out: the sequence of its setter calls alone
    leaves the same state and gets the same results for those calls. *)
Theorem getters_can_be_dropped (P : CRT) nstream
        (D : documented P nstream) (ops : list op) (s : crt_state P) :
  final (run P (calls (filter is_set ops)) s) = final (run P (calls ops) s) /\
  result (run P (calls (filter is_set ops)) s) =
    setter_results ops (result (run P (calls ops) s)).
Proof.
  revert s; induction ops as [| o ops IH]; intros s.
  - split; reflexivity.
  - rewrite (run_calls_cons P o ops), run_call; cbv zeta.
    cbn [result final]. unfold setter_results.
    destruct o as [| n]; cbn [filter is_set is_get negb combine fst snd prim].
    + rewrite (doc_get P nstream D s); cbn [fst snd]. apply IH.
    + rewrite run_calls_cons, run_call; cbv zeta.
      cbn [result final prim map snd].
      destruct (IH (snd (_setmaxstdio P n s))) as [IHf IHr].
      split; [exact IHf | now rewrite IHr].
Qed.

Lemma getters_can_be_dropped_witness :
  final (run msvcrt (calls [Set_ 2048; Set_ 10]) default_nstream) =
    final (run msvcrt (calls [Get; Set_ 2048; Get; Set_ 10; Get])
               default_nstream) /\
  result (run msvcrt (calls [Set_ 2048; Set_ 10]) default_nstream) =
    setter_results [Get; Set_ 2048; Get; Set_ 10; Get]
      (result (run msvcrt (calls [Get; Set_ 2048; Get; Set_ 10; Get])
                   default_nstream)).
Proof.
  exact (getters_can_be_dropped msvcrt (fun s => s) msvcrt_documented
           [Get; Set_ 2048; Get; Set_ 10; Get] default_nstream).
Defined.

Lemma limit_is_tracked (P : CRT) nstream (D : documented P nstream)
      (ops : list op) (s : crt_state P) :
  forallb unambiguous ops = true ->
  nstream (final (run P (calls ops) s)) =
  tracked (nstream s) ops (result (run P (calls ops) s)).
Proof.
  revert s; induction ops as [| o ops IH]; intros s H.
  - reflexivity.
  - cbn [forallb] in H. apply andb_prop in H as [Ho Hops].
    rewrite run_calls_cons, run_call; cbv zeta.
    cbn [result final tracked]. rewrite (IH _ Hops). f_equal.
    destruct o as [| n]; cbn [prim track unambiguous] in *.
    + now rewrite (doc_get P nstream D s).
    + apply negb_true_iff, Z.eqb_neq in Ho.
      destruct (doc_set P nstream D n s) as [[Er Es] | [Er Es]];
        rewrite Er, Es.
      * apply Z.eqb_neq in Ho. now rewrite Ho.
      * reflexivity.
Qed.

(** X4.  On a runtime that meets the documented contract, the limit can be
    followed from the results alone.  After any sequence of calls in which
    no request is for -1, [CGetMaxSTDIO] returns the last setter result
    other than -1, or, if there is none, what it returned before the
    sequence: a request answered with -1 has left the limit as it was. *)
Theorem getter_returns_tracked_limit (P : CRT) nstream
        (D : documented P nstream) (ops : list op) (s : crt_state P) :
  forallb unambiguous ops = true ->
  result (run P CGetMaxSTDIO (final (run P (calls ops) s))) =
  tracked (result (run P CGetMaxSTDIO s)) ops
          (result (run P (calls ops) s)).
Proof.
  intros H. rewrite !run_CGetMaxSTDIO, !(doc_get P nstream D).
  cbn [result fst]. now apply limit_is_tracked.
Qed.

Lemma getter_returns_tracked_limit_witness :
  forallb unambiguous [Set_ 2048; Get; Set_ 10; Set_ 10000; Get] = true /\
  result (run msvcrt (calls [Set_ 2048; Get; Set_ 10; Set_ 10000; Get])
              default_nstream) = [2048; 2048; -1; -1; 2048] /\
  result (run msvcrt CGetMaxSTDIO
              (final (run msvcrt
                          (calls [Set_ 2048; Get; Set_ 10; Set_ 10000; Get])
                          default_nstream))) =
  tracked (result (run msvcrt CGetMaxSTDIO default_nstream))
          [Set_ 2048; Get; Set_ 10; Set_ 10000; Get]
          (result (run msvcrt
                       (calls [Set_ 2048; Get; Set_ 10; Set_ 10000; Get])
                       default_nstream)).
Proof.
  split; [reflexivity |]. split; [reflexivity |].
  exact (getter_returns_tracked_limit msvcrt (fun s => s) msvcrt_documented
           [Set_ 2048; Get; Set_ 10; Set_ 10000; Get] default_nstream
           eq_refl).
Defined.

Lemma limit_initial_or_requested (P : CRT) nstream
      (D : documented P nstream) (ops : list op) (s : crt_state P) :
  In (nstream (final (run P (calls ops) s))) (nstream s :: requests ops).
Proof.
  revert s; induction ops as [| o ops IH]; intros s.
  - left; reflexivity.
  - rewrite run_calls_cons, run_call; cbv zeta. cbn [result final].
    destruct o as [| n]; cbn [prim requests].
    + rewrite (doc_get P nstream D s); cbn [snd]. apply IH.
    + destruct (IH (snd (_setmaxstdio P n s))) as [E | Hin].
      * rewrite <- E.
        destruct (doc_set P nstream D n s) as [[_ Es] | [_ Es]];
          rewrite Es; [right; left | left]; reflexivity.
      * right; right; exact Hin.
Qed.

(** X5.  On a runtime that meets the documented contract no limit is ever
    made up: after any sequence of calls, [CGetMaxSTDIO] returns either
    what it returned before the sequence or one of the values the setter
    calls asked for.  A request is taken as it is or not at all. *)
Theorem getter_returns_initial_or_requested (P : CRT) nstream
        (D : documented P nstream) (ops : list op) (s : crt_state P) :
  In (result (run P CGetMaxSTDIO (final (run P (calls ops) s))))
     (result (run P CGetMaxSTDIO s) :: requests ops).
Proof.
  rewrite !run_CGetMaxSTDIO, !(doc_get P nstream D). cbn [result fst].
  now apply limit_initial_or_requested.
Qed.

Lemma getter_returns_initial_or_requested_witness :
  In (result (run msvcrt CGetMaxSTDIO
                  (final (run msvcrt (calls [Set_ 10; Get; Set_ 100000])
                              default_nstream))))
     (result (run msvcrt CGetMaxSTDIO default_nstream)
      :: requests [Set_ 10; Get; Set_ 100000]).
Proof.
  exact (getter_returns_initial_or_requested msvcrt (fun s => s)
           msvcrt_documented [Set_ 10; Get; Set_ 100000] default_nstream).
Defined.

End MaxStdio.
